(** * InvoiceFlow AI backend: a shallow embedding of src/main.py and src/schemas.py

    Strings are ASCII strings ([String.string]); Python's [float] values are
    modelled by canonical rationals [Qc] (the exact decimal value of the
    parsed token, rounding to binary64 abstracted away); MongoDB documents
    and Python dicts are [gmap string value]; the clock is an explicit
    argument. *)

From Stdlib Require Import QArith Qcanon Ascii String.
From stdpp Require Import base gmap strings list.

Local Open Scope list_scope.

Local Notation "a +s+ b" := (String.append a b) (at level 60, right associativity).

(* ------------------------------------------------------------------ *)
(** ** Character and string helpers (Python [str] methods, ASCII) *)

Module Py.

Definition is_digit (c : ascii) : bool :=
  let n := Ascii.nat_of_ascii c in (48 <=? n) && (n <=? 57).

Definition is_upper (c : ascii) : bool :=
  let n := Ascii.nat_of_ascii c in (65 <=? n) && (n <=? 90).

Definition is_lower (c : ascii) : bool :=
  let n := Ascii.nat_of_ascii c in (97 <=? n) && (n <=? 122).

Definition is_alpha_char (c : ascii) : bool := is_upper c || is_lower c.

Definition to_upper (c : ascii) : ascii :=
  if is_lower c then Ascii.ascii_of_nat (Ascii.nat_of_ascii c - 32) else c.

Definition to_lower (c : ascii) : ascii :=
  if is_upper c then Ascii.ascii_of_nat (Ascii.nat_of_ascii c + 32) else c.

Fixpoint all_chars (f : ascii -> bool) (s : string) : bool :=
  match s with
  | EmptyString => true
  | String c s' => f c && all_chars f s'
  end.

Fixpoint any_char (f : ascii -> bool) (s : string) : bool :=
  match s with
  | EmptyString => false
  | String c s' => f c || any_char f s'
  end.

Fixpoint map_chars (f : ascii -> ascii) (s : string) : string :=
  match s with
  | EmptyString => EmptyString
  | String c s' => String (f c) (map_chars f s')
  end.

(** [s.isdigit()]: non-empty and every character a digit. *)
Definition isdigit (s : string) : bool :=
  match s with EmptyString => false | _ => all_chars is_digit s end.

(** [s.isalpha()]: non-empty and every character a letter. *)
Definition isalpha (s : string) : bool :=
  match s with EmptyString => false | _ => all_chars is_alpha_char s end.

(** [s.capitalize()]: first character upper case, the rest lower case. *)
Definition capitalize (s : string) : string :=
  match s with
  | EmptyString => EmptyString
  | String c s' => String (to_upper c) (map_chars to_lower s')
  end.

(** [s.replace(old, new)] for one-character [old] and [new]. *)
Definition replace_char (old new : ascii) (s : string) : string :=
  map_chars (fun c => if Ascii.eqb c old then new else c) s.

(** [s.replace(old, "", 1)] for a one-character [old]: drop the first occurrence. *)
Fixpoint remove_first (old : ascii) (s : string) : string :=
  match s with
  | EmptyString => EmptyString
  | String c s' => if Ascii.eqb c old then s' else String c (remove_first old s')
  end.

(** [s.split(sep)] for a one-character separator: keeps empty pieces. *)
Fixpoint split (sep : ascii) (s : string) : list string :=
  match s with
  | EmptyString => [EmptyString]
  | String c s' =>
      let rest := split sep s' in
      if Ascii.eqb c sep then EmptyString :: rest
      else match rest with
           | r :: rs => String c r :: rs
           | [] => [String c EmptyString]
           end
  end.

(** [s[i]] for an in-range index. *)
Definition char_at (s : string) (i : nat) : option ascii := String.get i s.

(** [str(n)] for a non-negative [int]: its decimal digits. *)
Definition digit_char (d : N) : ascii := Ascii.ascii_of_N (48 + d).

Fixpoint str_N_go (fuel : nat) (n : N) (acc : string) : string :=
  match fuel with
  | O => acc
  | S f =>
      let acc' := String (digit_char (n mod 10)) acc in
      if (n <? 10)%N then acc' else str_N_go f (n / 10)%N acc'
  end.

Definition str_N (n : N) : string := str_N_go (S (N.size_nat n)) n EmptyString.

(** [float(s)] on a string of digits with at most one ['.']: its decimal value. *)
Fixpoint digits_value (s : string) (acc : Z) : Z :=
  match s with
  | EmptyString => acc
  | String c s' => digits_value s' (10 * acc + (Z.of_nat (Ascii.nat_of_ascii c) - 48))
  end.

Fixpoint split_at_dot (s : string) : string * string :=
  match s with
  | EmptyString => (EmptyString, EmptyString)
  | String c s' =>
      if Ascii.eqb c "." then (EmptyString, s')
      else let '(i, f) := split_at_dot s' in (String c i, f)
  end.

Definition float_of (s : string) : option Qc :=
  let '(i, f) := split_at_dot s in
  if all_chars is_digit i && all_chars is_digit f
     && negb (String.eqb (i +s+ f) EmptyString)
  then Some (Q2Qc (Qmake (digits_value (i +s+ f) 0) (Z.to_pos (10 ^ Z.of_nat (String.length f)))))
  else None.

(** [repr(s)] for a [str] of code points below 256: single quotes, or double
    quotes when [s] holds a single quote and no double quote; a backslash,
    the chosen quote, tab, line feed and carriage return are escaped, and the
    other non-printable characters are written [\xhh]. *)
Definition backslash : ascii := Ascii.ascii_of_nat 92.
Definition squote : ascii := Ascii.ascii_of_nat 39.
Definition dquote_char : ascii := Ascii.ascii_of_nat 34.

Definition hex_lower (d : nat) : ascii :=
  if d <? 10 then Ascii.ascii_of_nat (48 + d) else Ascii.ascii_of_nat (87 + d).

Definition is_printable (n : nat) : bool :=
  negb ((n <? 32) || (n =? 127) || ((128 <=? n) && (n <=? 160)) || (n =? 173)).

Definition repr_char (q c : ascii) : string :=
  let n := Ascii.nat_of_ascii c in
  if Ascii.eqb c backslash then String backslash (String backslash EmptyString)
  else if Ascii.eqb c q then String backslash (String q EmptyString)
  else if n =? 9 then String backslash "t"
  else if n =? 10 then String backslash "n"
  else if n =? 13 then String backslash "r"
  else if is_printable n then String c EmptyString
  else String backslash (String "x" (String (hex_lower (n / 16))
                                      (String (hex_lower (n mod 16)) EmptyString))).

Fixpoint repr_body (q : ascii) (s : string) : string :=
  match s with
  | EmptyString => EmptyString
  | String c s' => repr_char q c +s+ repr_body q s'
  end.

Definition repr (s : string) : string :=
  let q := if any_char (Ascii.eqb squote) s && negb (any_char (Ascii.eqb dquote_char) s)
           then dquote_char else squote in
  String q (repr_body q s +s+ String q EmptyString).

End Py.

(* ------------------------------------------------------------------ *)
(** ** [os.path] (POSIX) *)

Module OsPath.
Import Py.

(** [os.path.basename(p)]: the text after the last ['/']. *)
Definition basename (p : string) : string := List.last (split "/" p) EmptyString.

(** Root and extension at the last ['.'] of a string (no ['/'] in it). *)
Fixpoint last_dot_split (s : string) : option (string * string) :=
  match s with
  | EmptyString => None
  | String c s' =>
      match last_dot_split s' with
      | Some (r, e) => Some (String c r, e)
      | None => if Ascii.eqb c "." then Some (EmptyString, s') else None
      end
  end.

(** [os.path.splitext(b)[0]] for a base name [b]: cut at the last dot unless
    only dots precede it. *)
Definition splitext_root (b : string) : string :=
  match last_dot_split b with
  | Some (r, _) => if any_char (fun c => negb (Ascii.eqb c ".")) r then r else b
  | None => b
  end.

(** [os.path.join(a, b)]. *)
Definition join (a b : string) : string :=
  let starts_with_sep := match b with String c _ => Ascii.eqb c "/" | _ => false end in
  if starts_with_sep then b
  else if String.eqb a EmptyString then b
  else match String.get (String.length a - 1) a with
       | Some c => if Ascii.eqb c "/" then a +s+ b else a +s+ "/" +s+ b
       | None => a +s+ "/" +s+ b
       end.

End OsPath.

(* ------------------------------------------------------------------ *)
(** ** The clock *)

(** The three readings of [datetime.now()] an upload makes: the timestamp in
    the stored file name (main.py line 126), the timestamp in the invoice
    number (line 50) and today's date formatted [%Y-%m-%d] (line 52). *)
Record clock := {
  save_ts : N;
  extract_ts : N;
  today : string
}.

(* ------------------------------------------------------------------ *)
(** ** [mock_ai_extract] (main.py lines 47-70) *)

Module Extract.
Import Py OsPath.

(** The four local variables of the loop. *)
Record extraction := {
  vendor_name : string;
  invoice_number : string;
  total_amount : Qc;
  date : string
}.

(** [len(p) == 10 and p[4] == '-' and p[7] == '-']. *)
Definition is_date_token (p : string) : bool :=
  (String.length p =? 10)
  && bool_decide (char_at p 4 = Some "-"%char)
  && bool_decide (char_at p 7 = Some "-"%char).

(** One iteration of [for p in parts]: the three independent [if]s. *)
Definition step (st : extraction) (p : string) : extraction :=
  let total :=
    if isdigit (remove_first "." p) then
      match float_of p with
      | Some f => f
      | None => total_amount st    (* except Exception: pass *)
      end
    else total_amount st in
  let vendor :=
    if (3 <=? String.length p) && isalpha p then capitalize p else vendor_name st in
  let date_str := if is_date_token p then p else date st in
  {| vendor_name := vendor; invoice_number := invoice_number st;
     total_amount := total; date := date_str |}.

(** [parts = name_without_ext.replace("-", "_").split("_")]. *)
Definition parts (file_path : string) : list string :=
  let base := basename file_path in
  let name_without_ext := splitext_root base in
  split "_" (replace_char "-" "_" name_without_ext).

Definition defaults (clk : clock) : extraction := {|
  vendor_name := "Acme Corp";
  invoice_number := "INV-" +s+ str_N (extract_ts clk);
  total_amount := Q2Qc (199 # 1);
  date := today clk
|}.

Definition mock_ai_extract (clk : clock) (file_path : string) : extraction :=
  fold_left step (parts file_path) (defaults clk).

End Extract.

(** [os.path.join(UPLOAD_DIR, f"{ts}_{file.filename}")] (main.py lines 126-127). *)
Definition UPLOAD_DIR : string := "uploads".

Definition upload_file_name (ts : N) (filename : string) : string :=
  Py.str_N ts +s+ "_" +s+ filename.

Definition upload_path (ts : N) (filename : string) : string :=
  OsPath.join UPLOAD_DIR (upload_file_name ts filename).

(* ------------------------------------------------------------------ *)
(** ** Values, documents and the document store *)

(** A BSON/JSON value as the handlers produce it. *)
Inductive value :=
  | VNull
  | VBool (b : bool)
  | VStr (s : string)
  | VInt (z : Z)
  | VNum (q : Qc)
  | VOid (hex : string).

Global Instance value_eq_dec : EqDecision value.
Proof. solve_decision. Defined.

Definition is_null (v : value) : bool := match v with VNull => true | _ => false end.

(** A MongoDB document, and a Python dict once its literal is evaluated. *)
Abbreviation doc := (gmap string value).

(** A Python dict literal, as an ordered list of entries; a later entry of
    the same key wins. *)
Definition py_dict (entries : list (string * value)) : doc :=
  fold_left (fun m kv => <[kv.1 := kv.2]> m) entries ∅.

(** The persisted state: the collections of the database, the counter the
    store draws fresh identifiers from, and the upload directory. *)
Record store := {
  db : gmap string (list doc);
  next_oid : N;
  files : gmap string (list Byte.byte)
}.

Definition collection (st : store) (name : string) : list doc :=
  default [] (db st !! name).

Definition set_collection (st : store) (name : string) (docs : list doc) : store :=
  {| db := <[name := docs]> (db st); next_oid := next_oid st; files := files st |}.

(** Exceptions raised inside the handlers. *)
Inductive exc :=
  | HTTPException (status_code : N) (detail : string)
  | InvalidId (oid : string)
  | StoreError (msg : string)
  | ValidationError (msg : string)
  | PydanticUserError (msg : string)
  | OSError (errno : N) (strerror filename : string).

(** [str(e)]; starlette renders an [HTTPException] as ["<code>: <detail>"],
    bson formats its [InvalidId] message with [%r], and an [OSError] reads
    ["[Errno <n>] <strerror>: <repr(filename)>"]. *)
Definition exc_str (e : exc) : string :=
  match e with
  | HTTPException c d => Py.str_N c +s+ ": " +s+ d
  | InvalidId s => Py.repr s +s+ " is not a valid ObjectId, it must be a 12-byte input or a 24-character hex string"
  | StoreError m => m
  | ValidationError m => m
  | PydanticUserError m => m
  | OSError n e f => "[Errno " +s+ Py.str_N n +s+ "] " +s+ e +s+ ": " +s+ Py.repr f
  end.

(** A handler body: state passing over the store, with Python exceptions. *)
Definition M (A : Type) : Type := store -> store * (exc + A).

Definition ret {A} (a : A) : M A := fun st => (st, inr a).

Definition bind {A B} (m : M A) (k : A -> M B) : M B :=
  fun st => match m st with
            | (st', inl e) => (st', inl e)
            | (st', inr a) => k a st'
            end.

Definition raise {A} (e : exc) : M A := fun st => (st, inl e).

(** [try: m except Exception as e: h(e)]. *)
Definition try_except {A} (m : M A) (h : exc -> M A) : M A :=
  fun st => match m st with
            | (st', inl e) => h e st'
            | (st', inr a) => (st', inr a)
            end.

Notation "x <- m ;; k" := (bind m (fun x => k))
  (at level 100, m at next level, right associativity).

(** What the client receives: the handler's value, or the status code and
    detail of an [HTTPException]; any other exception is a 500. *)
Inductive response (A : Type) :=
  | Ok (a : A)
  | Err (status_code : N) (detail : string).
Arguments Ok {A} a.
Arguments Err {A} status_code detail.

Definition run {A} (m : M A) (st : store) : store * response A :=
  match m st with
  | (st', inl (HTTPException c d)) => (st', Err c d)
  | (st', inl e) => (st', Err 500 (exc_str e))
  | (st', inr a) => (st', Ok a)
  end.

(** [bson.ObjectId(s)] on a [str]: 24 hexadecimal digits, else [InvalidId]. *)
Definition is_hex (c : ascii) : bool :=
  Py.is_digit c ||
  let n := Ascii.nat_of_ascii c in ((97 <=? n) && (n <=? 102)) || ((65 <=? n) && (n <=? 70)).

Definition valid_oid (s : string) : bool :=
  (String.length s =? 24) && Py.all_chars is_hex s.

Definition ObjectId (s : string) : M string :=
  if valid_oid s
  then ret (Py.map_chars Py.to_lower s)
  else raise (InvalidId s).

(** The 24-digit hexadecimal rendering of the store's [n]-th identifier. *)
Definition hex_char (d : N) : ascii :=
  if (d <? 10)%N then Ascii.ascii_of_N (48 + d) else Ascii.ascii_of_N (87 + d).

Fixpoint hex_digits (k : nat) (n : N) : string :=
  match k with
  | O => EmptyString
  | S k' => hex_digits k' (n / 16)%N +s+ String (hex_char (n mod 16)) EmptyString
  end.

Definition oid_hex (n : N) : string := hex_digits 24 n.

(** Modelled from the spec: [database.create_document] (database.py is not
    among the sources). §6: [insert(collection, document) -> id]; the store
    assigns a fresh identifier and the function returns it as a string.  The
    list of a collection records the documents in the order they were
    inserted; the order in which the store hands them back is not this one
    but its natural order (see [get_documents]).  [fault] stands for a store
    that cannot be reached, which raises (§7). *)
Definition create_document (fault : bool) (name : string) (data : list (string * value))
  : M string :=
  fun st =>
    if fault then (st, inl (StoreError "store unavailable")) else
    let oid := oid_hex (next_oid st) in
    let d := <["_id" := VOid oid]> (py_dict data) in
    let st1 := set_collection st name (collection st name ++ [d]) in
    ({| db := db st1; next_oid := N.succ (next_oid st); files := files st1 |}, inr oid).

(** A filter matches a document when every listed field has the given value. *)
Definition matches (filter : list (string * value)) (d : doc) : bool :=
  forallb (fun kv => bool_decide (d !! kv.1 = Some kv.2)) filter.

(** [{"$set": patch}] applied to one document. *)
Definition apply_set (patch : list (string * value)) (d : doc) : doc :=
  fold_left (fun m kv => <[kv.1 := kv.2]> m) patch d.

Fixpoint update_first (filter patch : list (string * value)) (docs : list doc)
  : list doc * N :=
  match docs with
  | [] => ([], 0%N)
  | d :: ds =>
      if matches filter d then (apply_set patch d :: ds, 1%N)
      else let '(ds', n) := update_first filter patch ds in (d :: ds', n)
  end.

(** [db[name].update_one(filter, {"$set": patch}).matched_count], by the
    store contract of §6 ([updateOne(collection, filter, patch) ->
    matchedCount]): the first matching document gets the fields of [patch];
    an empty [$set] changes nothing (as MongoDB does from 5.0 on).  [fault]
    stands for a store that cannot be reached, which raises. *)
Definition update_one (fault : bool) (name : string) (filter patch : list (string * value))
  : M N :=
  fun st =>
    if fault then (st, inl (StoreError "store unavailable"))
    else let '(docs', n) := update_first filter patch (collection st name) in
         (set_collection st name docs', inr n).

(** The server's file system, as far as the handlers see it: given the files
    already written, the error number and message of the [OSError] that
    opening [path] for writing and writing to it raises, if any (a missing
    directory, a name too long, a directory of that name, a full disk, ...). *)
Definition fs : Type := gmap string (list Byte.byte) -> string -> option (N * string).

(** [with open(path, "wb") as f: f.write(bytes)]. *)
Definition write_file (fs_open : fs) (path : string) (bytes : list Byte.byte) : M unit :=
  fun st =>
    match fs_open (files st) path with
    | Some (n, e) => (st, inl (OSError n e path))
    | None => ({| db := db st; next_oid := next_oid st; files := <[path := bytes]> (files st) |},
               inr tt)
    end.

(* ------------------------------------------------------------------ *)
(** ** Request models and schemas (main.py lines 29-41, schemas.py) *)

(** [CreateUserRequest], defaults already applied by the request parser. *)
Record CreateUserRequest := {
  cu_name : string;
  cu_email : string;
  cu_subscription_tier : string;
  cu_role : string
}.

Record UpdateInvoiceRequest := {
  invoice_id : string;
  req_invoice_number : option string;
  req_vendor_name : option string;
  req_date : option string;
  req_total_amount : option Qc;
  req_status : option string
}.

(** [payload.model_dump()]: every field, [None] as [VNull]. *)
Definition model_dump (p : UpdateInvoiceRequest) : list (string * value) :=
  [("invoice_id", VStr (invoice_id p));
   ("invoice_number", from_option VStr VNull (req_invoice_number p));
   ("vendor_name", from_option VStr VNull (req_vendor_name p));
   ("date", from_option VStr VNull (req_date p));
   ("total_amount", from_option VNum VNull (req_total_amount p));
   ("status", from_option VStr VNull (req_status p))].

(** The schema [User]: [subscription_tier] and [role] are literals,
    [credits_remaining] is [ge=0]; a violation raises [ValidationError]. *)
Definition UserSchema (name email subscription_tier : string) (credits_remaining : Z)
  (role : string) : M (list (string * value)) :=
  if bool_decide (subscription_tier ∈ ["Free"; "Pro"])
     && bool_decide (role ∈ ["admin"; "customer"])
     && (0 <=? credits_remaining)%Z
  then ret [("name", VStr name); ("email", VStr email);
            ("subscription_tier", VStr subscription_tier);
            ("credits_remaining", VInt credits_remaining); ("role", VStr role)]
  else raise (ValidationError "1 validation error for User").

(** The fields of an invoice document as the schema [Invoice] lays them out
    (schemas.py lines 23-35), unset optional fields as [None]; used to
    describe stored invoices. *)
Definition invoice_document_fields (user_id file_path file_name status : string)
  : list (string * value) :=
  [("user_id", VStr user_id); ("file_path", VStr file_path);
   ("file_name", VStr file_name); ("invoice_number", VNull);
   ("vendor_name", VNull); ("date", VNull); ("total_amount", VNull);
   ("status", VStr status)].

(** The schema [Invoice] itself cannot be built.  In its class body the
    assignment [date: Optional[date] = Field(None, ...)] (schemas.py line 33)
    binds [date] to the [FieldInfo] before the annotation is evaluated, so the
    annotation no longer names [datetime.date] and pydantic refuses the class
    ("Error when building FieldInfo from annotated attribute").  main.py,
    which imports it, does not load; embedded handler by handler, every
    construction of an [Invoice] raises. *)
Definition InvoiceSchema (user_id file_path file_name status : string)
  : M (list (string * value)) :=
  raise (PydanticUserError "Error when building FieldInfo from annotated attribute").

(* ------------------------------------------------------------------ *)
(** ** Handlers *)

(** [create_user] (main.py lines 94-104). *)
Definition create_user (fault : bool) (payload : CreateUserRequest) : M doc :=
  user <- UserSchema (cu_name payload) (cu_email payload) (cu_subscription_tier payload)
            (if String.eqb (cu_subscription_tier payload) "Free" then 50%Z else 1000%Z)
            (cu_role payload) ;;
  user_id <- create_document fault "user" user ;;
  ret (py_dict [("id", VStr user_id)]).

Record UploadFile := {
  filename : string;
  content : list Byte.byte
}.

(** The dict [mock_ai_extract] returns. *)
Definition extracted_dict (e : Extract.extraction) : list (string * value) :=
  [("vendor_name", VStr (Extract.vendor_name e));
   ("invoice_number", VStr (Extract.invoice_number e));
   ("total_amount", VNum (Extract.total_amount e));
   ("date", VStr (Extract.date e))].

Definition missing_user_id {A} : M A :=
  raise (HTTPException 401 "Missing x-user-id header").

(** [upload_invoice] (main.py lines 117-147).  [patch_fault] makes the
    post-extraction [update_one] raise, [fault] the [create_document]. *)
Definition upload_invoice (fs_open : fs) (clk : clock) (fault patch_fault : bool)
  (current_user : option string) (file : UploadFile) : M doc :=
  match current_user with
  | None => missing_user_id
  | Some u =>
      let file_name := upload_file_name (save_ts clk) (filename file) in
      let file_path := OsPath.join UPLOAD_DIR file_name in
      _ <- write_file fs_open file_path (content file) ;;
      inv <- InvoiceSchema u file_path (filename file) "Processing" ;;
      invoice_id <- create_document fault "invoice" inv ;;
      let extracted := extracted_dict (Extract.mock_ai_extract clk file_path) in
      _ <- try_except
             (oid <- ObjectId invoice_id ;;
              _ <- update_one patch_fault "invoice" [("_id", VOid oid)] extracted ;;
              ret tt)
             (fun _ => ret tt) ;;
      ret (py_dict ([("id", VStr invoice_id)] ++ extracted
                    ++ [("status", VStr "Needs Review")]))
  end.

(** The [$set] document of [update_invoice]. *)
Definition updates_of (payload : UpdateInvoiceRequest) : list (string * value) :=
  List.filter (fun kv => negb (String.eqb kv.1 "invoice_id") && negb (is_null kv.2))
              (model_dump payload).

(** The filter of [update_invoice]: the invoice and its owner. *)
Definition update_filter (oid u : string) : list (string * value) :=
  [("_id", VOid oid); ("user_id", VStr u)].

(** [update_invoice] (main.py lines 170-182).  [fault] makes the store's
    [update_one] raise. *)
Definition update_invoice (fault : bool) (payload : UpdateInvoiceRequest)
  (current_user : option string) : M doc :=
  match current_user with
  | None => missing_user_id
  | Some u =>
      _ <- try_except
             (let updates := updates_of payload in
              oid <- ObjectId (invoice_id payload) ;;
              matched <- update_one fault "invoice" (update_filter oid u) updates ;;
              if (matched =? 0)%N then raise (HTTPException 404 "Invoice not found")
              else ret tt)
             (fun e => raise (HTTPException 400 (exc_str e))) ;;
      ret (py_dict [("ok", VBool true)])
  end.

(* ------------------------------------------------------------------ *)
(** ** Listing and exporting invoices *)

(** [get_current_user_id] (main.py lines 90-91): the [x-user-id] header as
    sent, [None] when absent. *)
Definition get_current_user_id (x_user_id : option string) : option string := x_user_id.

(** Modelled from the spec: [database.get_documents] (database.py is not
    among the sources). §6: [find(collection, filter) -> sequence of
    documents]; the documents of the collection that match the filter, in
    "store-natural order" (§4.3), which the spec leaves open: [natural_order]
    arranges the documents of a collection, and the results below assume only
    that it permutes them.  Reading does not change the store; [fault] stands
    for a store that cannot be reached, which raises (§7). *)
Definition get_documents (fault : bool) (natural_order : list doc -> list doc)
  (name : string) (filter : list (string * value)) : M (list doc) :=
  fun st =>
    if fault then (st, inl (StoreError "store unavailable"))
    else (st, inr (List.filter (matches filter) (natural_order (collection st name)))).

(** [d.get(k, default)]. *)
Definition dict_get (d : doc) (k : string) (default : value) : value :=
  from_option id default (d !! k).

(** The filter both reading handlers pass: the caller's invoices. *)
Definition owner_filter (u : string) : list (string * value) := [("user_id", VStr u)].

Definition dquote : ascii := Ascii.ascii_of_nat 34.
Definition CRLF : string := String (Ascii.ascii_of_nat 13) (String (Ascii.ascii_of_nat 10) EmptyString).

Section Render.

(** [repr] of a Python [float]: the shortest decimal that reads back as the
    same double, which rationals do not determine; kept as a parameter. *)
Variable float_repr : Qc -> string.

(** The store's natural order (see [get_documents]). *)
Variable natural_order : list doc -> list doc.

(** [str(v)]. *)
Definition py_str (v : value) : string :=
  match v with
  | VNull => "None"
  | VBool true => "True"
  | VBool false => "False"
  | VStr s => s
  | VInt z => if (z <? 0)%Z then "-" +s+ Py.str_N (Z.to_N (- z)) else Py.str_N (Z.to_N z)
  | VNum q => float_repr q
  | VOid h => h
  end.

(** One entry of the list [list_invoices] returns (main.py lines 155-166).
    [isinstance(date_val, datetime)] never holds here: no value the handlers
    store is a [datetime], so [date] is passed on as read. *)
Definition invoice_summary (d : doc) : doc :=
  py_dict [("id", VStr (py_str (dict_get d "_id" VNull)));
           ("file_name", dict_get d "file_name" VNull);
           ("invoice_number", dict_get d "invoice_number" VNull);
           ("vendor_name", dict_get d "vendor_name" VNull);
           ("date", dict_get d "date" VNull);
           ("total_amount", dict_get d "total_amount" VNull);
           ("status", dict_get d "status" (VStr "Processing"))].

(** [list_invoices] (main.py lines 149-168). *)
Definition list_invoices (fault : bool) (current_user : option string) : M (list doc) :=
  match current_user with
  | None => missing_user_id
  | Some u =>
      docs <- get_documents fault natural_order "invoice" (owner_filter u) ;;
      ret (map invoice_summary docs)
  end.

(** The text [csv.writer] writes for one cell: [None] as the empty string,
    a [str] as it is, anything else through [str]. *)
Definition csv_str (v : value) : string :=
  match v with
  | VNull => EmptyString
  | VStr s => s
  | _ => py_str v
  end.

(** [csv.QUOTE_MINIMAL] with the default dialect: a field holding the
    delimiter, the quote character or a line break is quoted, its quotes
    doubled. *)
Definition csv_special (c : ascii) : bool :=
  Ascii.eqb c "," || Ascii.eqb c dquote
  || Ascii.eqb c (Ascii.ascii_of_nat 13) || Ascii.eqb c (Ascii.ascii_of_nat 10).

Fixpoint csv_escape (s : string) : string :=
  match s with
  | EmptyString => EmptyString
  | String c s' =>
      if Ascii.eqb c dquote then String dquote (String dquote (csv_escape s'))
      else String c (csv_escape s')
  end.

Definition csv_field (s : string) : string :=
  if Py.any_char csv_special s then String dquote (csv_escape s +s+ String dquote EmptyString)
  else s.

(** [writer.writerow(cells)]: the fields joined by commas, then ["\r\n"]; a
    row of one empty field is written as a quoted empty string. *)
Definition csv_row (cells : list string) : string :=
  match cells with
  | [EmptyString] => String dquote (String dquote CRLF)
  | _ => String.concat "," (map csv_field cells) +s+ CRLF
  end.

Definition export_header : list string :=
  ["Invoice Number"; "Vendor"; "Date"; "Total Amount"; "Status"; "File Name"].

(** The cells written for one invoice (main.py lines 195-202). *)
Definition export_row (d : doc) : list string :=
  map (fun k => csv_str (dict_get d k (VStr EmptyString)))
      ["invoice_number"; "vendor_name"; "date"; "total_amount"; "status"; "file_name"].

Definition export_rows (docs : list doc) : list (list string) :=
  export_header :: map export_row docs.

(** [output.getvalue().encode()]: the rows one after the other, in UTF-8,
    which is the identity on ASCII text. *)
Definition csv_bytes (docs : list doc) : list Byte.byte :=
  String.list_byte_of_string (String.concat EmptyString (map csv_row (export_rows docs))).

Definition export_file_name (u : string) : string := "invoices_" +s+ u +s+ ".csv".

(** [export_invoices_csv] (main.py lines 184-211).  The [FileResponse] is
    given by the path it serves and the file name it announces. *)
Definition export_invoices_csv (fault : bool) (fs_open : fs) (current_user : option string)
  : M (string * string) :=
  match current_user with
  | None => missing_user_id
  | Some u =>
      docs <- get_documents fault natural_order "invoice" (owner_filter u) ;;
      let filename := export_file_name u in
      let path := OsPath.join UPLOAD_DIR filename in
      _ <- write_file fs_open path (csv_bytes docs) ;;
      ret (path, filename)
  end.

End Render.

(* ------------------------------------------------------------------ *)
(** ** Concrete inputs *)

(** The clock of the concrete runs below. *)
Definition clk0 : clock :=
  {| save_ts := 1700000000; extract_ts := 1700000001; today := "2026-10-17" |}.

Definition alice_invoice_id : string := "000000000000000000000001".

(** A store holding one invoice of "alice", as an upload leaves it. *)
Definition alice_invoice : doc :=
  <["_id" := VOid alice_invoice_id]>
    (py_dict (invoice_document_fields "alice" "uploads/1700000000_a.pdf" "a.pdf" "Processing")).

Definition st_alice : store :=
  {| db := {[ "invoice" := [alice_invoice] ]}; next_oid := 2; files := ∅ |}.

Definition update_request (vendor : option string) (total : option Qc) : UpdateInvoiceRequest :=
  {| invoice_id := alice_invoice_id; req_invoice_number := None; req_vendor_name := vendor;
     req_date := None; req_total_amount := total; req_status := None |}.

(** The file system of a fresh deployment, for the concrete runs: the
    directory uploads exists (main.py line 45), empty and without
    subdirectories.  Opening uploads/<name> for writing fails with ENOENT when
    <name> holds a '/' (its directory does not exist) and with EISDIR when it
    names the directory itself; the names of the runs are free of NUL and
    short. *)
Definition fresh_fs : fs := fun _ path =>
  match Py.split "/"%char path with
  | [d; name] =>
      if String.eqb d "uploads" then
        if bool_decide (name ∈ [EmptyString; "."; ".."])
        then Some (21%N, "Is a directory") else None
      else Some (2%N, "No such file or directory")
  | _ => Some (2%N, "No such file or directory")
  end.

(** A file "bob" uploads. *)
Definition bob_file : UploadFile := {| filename := "globex_250.pdf"; content := [] |}.


(** A [repr] for the concrete runs; none of them renders a float. *)
Definition repr0 (q : Qc) : string := EmptyString.

(** A store that hands documents back newest first. *)
Definition natural_order0 : list doc -> list doc := @rev doc.

(* ================================================================== *)
(** * Properties *)

(* ------------------------------------------------------------------ *)
(** ** String lemmas *)

Module StrFacts.
Import Py OsPath.

Lemma append_nil_r s : s +s+ EmptyString = s.
Proof.
  induction s as [|c s IH]; [reflexivity|].
  change (String c (s +s+ EmptyString) = String c s). rewrite IH. reflexivity.
Qed.

Lemma all_chars_app f a b : all_chars f (a +s+ b) = all_chars f a && all_chars f b.
Proof. induction a as [|c a IH]; simpl; [reflexivity|]. rewrite IH. apply andb_assoc. Qed.

Lemma any_char_app f a b : any_char f (a +s+ b) = any_char f a || any_char f b.
Proof. induction a as [|c a IH]; simpl; [reflexivity|]. rewrite IH. apply orb_assoc. Qed.

Lemma map_chars_app f a b : map_chars f (a +s+ b) = map_chars f a +s+ map_chars f b.
Proof. induction a as [|c a IH]; simpl; [reflexivity|]. rewrite IH. reflexivity. Qed.

Lemma all_chars_get f s i c :
  all_chars f s = true -> String.get i s = Some c -> f c = true.
Proof.
  revert i. induction s as [|c' s IH]; intros i Hs Hg; [discriminate|].
  simpl in Hs. apply andb_prop in Hs as [Hc Hs].
  destruct i as [|i]; simpl in Hg; [injection Hg as <-; exact Hc|]. eauto.
Qed.

Lemma all_chars_impl (f g : ascii -> bool) s :
  (forall c, f c = true -> g c = true) -> all_chars f s = true -> all_chars g s = true.
Proof.
  intros Hfg. induction s as [|c s IH]; simpl; [reflexivity|].
  intros H. apply andb_prop in H as [H1 H2]. rewrite (Hfg c H1), (IH H2). reflexivity.
Qed.

(** A character that is not a digit does not occur in a string of digits. *)
Lemma digits_avoid s sep :
  is_digit sep = false -> all_chars is_digit s = true ->
  all_chars (fun c => negb (Ascii.eqb c sep)) s = true.
Proof.
  intros Hsep. apply all_chars_impl. intros c Hc.
  destruct (Ascii.eqb_spec c sep); [subst; congruence | reflexivity].
Qed.

Lemma split_nonempty sep s : split sep s <> [].
Proof.
  destruct s as [|c s]; simpl; [discriminate|].
  destruct (Ascii.eqb c sep); [discriminate|]. destruct (split sep s); discriminate.
Qed.

Lemma split_app_sep sep a b :
  split sep (a +s+ String sep b) = split sep a ++ split sep b.
Proof.
  induction a as [|c a IH]; simpl.
  - rewrite Ascii.eqb_refl. reflexivity.
  - rewrite IH. destruct (Ascii.eqb c sep); [reflexivity|].
    pose proof (split_nonempty sep a) as Hne.
    destruct (split sep a) as [|r rs]; [congruence|]. reflexivity.
Qed.

Lemma split_no_sep sep s :
  all_chars (fun c => negb (Ascii.eqb c sep)) s = true -> split sep s = [s].
Proof.
  induction s as [|c s IH]; simpl; [reflexivity|].
  intros H. apply andb_prop in H as [Hc Hs]. rewrite IH by exact Hs.
  destruct (Ascii.eqb c sep); [discriminate|reflexivity].
Qed.

Lemma split_tokens f sep s :
  all_chars f s = true -> Forall (fun t => all_chars f t = true) (split sep s).
Proof.
  induction s as [|c s IH]; simpl; intros H.
  - constructor; [reflexivity|constructor].
  - apply andb_prop in H as [Hc Hs]. specialize (IH Hs).
    destruct (Ascii.eqb c sep); [constructor; [reflexivity|exact IH]|].
    destruct (split sep s) as [|r rs]; inversion IH; subst.
    + constructor; [simpl; rewrite Hc; reflexivity|constructor].
    + constructor; [simpl; rewrite Hc; assumption|assumption].
Qed.

Lemma replace_char_removes old new s :
  Ascii.eqb new old = false ->
  all_chars (fun c => negb (Ascii.eqb c old)) (replace_char old new s) = true.
Proof.
  intros Hno. unfold replace_char. induction s as [|c s IH]; simpl; [reflexivity|].
  rewrite IH, andb_true_r. destruct (Ascii.eqb c old) eqn:E; [rewrite Hno|rewrite E]; reflexivity.
Qed.

Lemma replace_char_absent old new s :
  all_chars (fun c => negb (Ascii.eqb c old)) s = true -> replace_char old new s = s.
Proof.
  unfold replace_char. induction s as [|c s IH]; simpl; [reflexivity|].
  intros H. apply andb_prop in H as [Hc Hs]. rewrite IH by exact Hs.
  destruct (Ascii.eqb c old); [discriminate|reflexivity].
Qed.

Lemma last_dot_split_app a s r e :
  last_dot_split s = Some (r, e) -> last_dot_split (a +s+ s) = Some (a +s+ r, e).
Proof. intros H. induction a as [|c a IH]; simpl; [exact H|]. rewrite IH. reflexivity. Qed.

End StrFacts.

(* ------------------------------------------------------------------ *)
(** ** [str(n)] of a timestamp *)

Module StrN.
Import Py StrFacts.

Lemma digit_char_value d :
  (d < 10)%N -> Z.of_nat (Ascii.nat_of_ascii (digit_char d)) = (48 + Z.of_N d)%Z.
Proof.
  intros Hd. unfold digit_char, Ascii.nat_of_ascii.
  rewrite Ascii.N_ascii_embedding by lia. rewrite N_nat_Z. lia.
Qed.

Lemma is_digit_digit_char d : (d < 10)%N -> is_digit (digit_char d) = true.
Proof.
  intros Hd. unfold is_digit.
  pose proof (digit_char_value d Hd) as Hv.
  apply andb_true_intro; split; apply Nat.leb_le; lia.
Qed.

Lemma str_N_go_digits fuel n acc :
  all_chars is_digit acc = true -> all_chars is_digit (str_N_go fuel n acc) = true.
Proof.
  revert n acc. induction fuel as [|f IH]; intros n acc Hacc; simpl; [exact Hacc|].
  assert (Hd : all_chars is_digit (String (digit_char (n mod 10)) acc) = true).
  { simpl. rewrite is_digit_digit_char, Hacc by (apply N.mod_lt; lia). reflexivity. }
  destruct (n <? 10)%N; [exact Hd|]. apply IH, Hd.
Qed.

Lemma str_N_go_nonempty fuel n acc :
  acc <> EmptyString -> str_N_go fuel n acc <> EmptyString.
Proof.
  revert n acc. induction fuel as [|f IH]; intros n acc Hacc; simpl; [exact Hacc|].
  destruct (n <? 10)%N; [discriminate|]. apply IH. discriminate.
Qed.

Lemma str_N_digits n : all_chars is_digit (str_N n) = true.
Proof. apply str_N_go_digits. reflexivity. Qed.

Lemma str_N_nonempty n : str_N n <> EmptyString.
Proof.
  unfold str_N. simpl. destruct (n <? 10)%N; [discriminate|].
  apply str_N_go_nonempty. discriminate.
Qed.

Lemma str_N_shape n :
  exists c r, str_N n = String c r /\ is_digit c = true.
Proof.
  pose proof (str_N_digits n) as Hd. pose proof (str_N_nonempty n) as Hn.
  destruct (str_N n) as [|c r]; [congruence|].
  simpl in Hd. apply andb_prop in Hd as [Hc _]. eauto.
Qed.

Lemma digits_value_acc s z :
  digits_value s z = (z * 10 ^ Z.of_nat (String.length s) + digits_value s 0)%Z.
Proof.
  revert z. induction s as [|c s IH]; intros z; simpl; [lia|].
  rewrite IH, (IH (10 * 0 + _)%Z). rewrite Nat2Z.inj_succ, Z.pow_succ_r by lia. ring.
Qed.

Lemma str_N_go_value fuel n acc :
  (n < 10 ^ N.of_nat fuel)%N ->
  digits_value (str_N_go fuel n acc) 0 =
  (Z.of_N n * 10 ^ Z.of_nat (String.length acc) + digits_value acc 0)%Z.
Proof.
  revert n acc. induction fuel as [|f IH]; intros n acc Hn; simpl.
  - simpl in Hn. assert (n = 0%N) as -> by lia. reflexivity.
  - assert (Hmod : (n mod 10 < 10)%N) by (apply N.mod_lt; lia).
    assert (Hacc' : digits_value (String (digit_char (n mod 10)) acc) 0 =
                    (Z.of_N (n mod 10) * 10 ^ Z.of_nat (String.length acc)
                     + digits_value acc 0)%Z).
    { simpl. rewrite digit_char_value by exact Hmod.
      rewrite digits_value_acc. f_equal. f_equal. lia. }
    pose proof (N.div_mod n 10 ltac:(lia)) as Hdm.
    destruct (n <? 10)%N eqn:E.
    + apply N.ltb_lt in E. rewrite Hacc', N.mod_small by exact E. reflexivity.
    + apply N.ltb_ge in E. rewrite IH.
      * rewrite Hacc'. simpl String.length. rewrite Nat2Z.inj_succ, Z.pow_succ_r by lia.
        rewrite Hdm at 3. rewrite N2Z.inj_add, N2Z.inj_mul. ring.
      * rewrite Nat2N.inj_succ, N.pow_succ_r' in Hn.
        apply N.Div0.div_lt_upper_bound; lia.
Qed.

Lemma pos_lt_pow_size_nat p : (Npos p < 2 ^ N.of_nat (Pos.size_nat p))%N.
Proof.
  induction p as [p IH|p IH|]; simpl Pos.size_nat;
    rewrite ?Nat2N.inj_succ, ?N.pow_succ_r'; simpl; lia.
Qed.

Lemma str_N_value n : digits_value (str_N n) 0 = Z.of_N n.
Proof.
  unfold str_N. rewrite str_N_go_value; [simpl; lia|].
  rewrite Nat2N.inj_succ, N.pow_succ_r'.
  assert (Hb : (n < 2 ^ N.of_nat (N.size_nat n))%N).
  { destruct n as [|p]; [simpl; lia|apply pos_lt_pow_size_nat]. }
  assert (Hm : (2 ^ N.of_nat (N.size_nat n) <= 10 ^ N.of_nat (N.size_nat n))%N).
  { apply N.pow_le_mono_l. lia. }
  lia.
Qed.

End StrN.

(* ------------------------------------------------------------------ *)
(** ** Facts about [mock_ai_extract] *)

Module ExtractFacts.
Import Py OsPath Extract StrFacts StrN.

Definition no_dash (s : string) : bool := all_chars (fun c => negb (Ascii.eqb c "-")) s.

(** The date rule needs a ['-'] inside the token. *)
Lemma date_rule_no_dash p : no_dash p = true -> is_date_token p = false.
Proof.
  intros H. unfold is_date_token. destruct (String.length p =? 10); [|reflexivity].
  case_bool_decide as H4; [|reflexivity].
  exfalso. pose proof (all_chars_get _ _ _ _ H H4) as Hc. simpl in Hc. discriminate.
Qed.

Lemma step_date_no_dash st p : no_dash p = true -> date (step st p) = date st.
Proof. intros H. unfold step; simpl. rewrite date_rule_no_dash by exact H. reflexivity. Qed.

Lemma fold_step_date ps st :
  Forall (fun p => no_dash p = true) ps -> date (fold_left step ps st) = date st.
Proof.
  revert st. induction ps as [|p ps IH]; intros st Hps; simpl; [reflexivity|].
  inversion Hps; subst. rewrite IH by assumption. apply step_date_no_dash. assumption.
Qed.

(** Every token of [parts] is free of ['-']: they are cut from the name
    after [replace("-", "_")]. *)
Lemma parts_no_dash file_path : Forall (fun p => no_dash p = true) (parts file_path).
Proof. unfold parts. apply split_tokens, replace_char_removes. reflexivity. Qed.

Lemma extract_date_today clk file_path :
  date (mock_ai_extract clk file_path) = today clk.
Proof. unfold mock_ai_extract. rewrite fold_step_date by apply parts_no_dash. reflexivity. Qed.

Lemma fold_step_invoice_number ps st :
  invoice_number (fold_left step ps st) = invoice_number st.
Proof.
  revert st. induction ps as [|p ps IH]; intros st; simpl; [reflexivity|].
  rewrite IH. reflexivity.
Qed.

Lemma extract_invoice_number clk file_path :
  invoice_number (mock_ai_extract clk file_path) = "INV-" +s+ str_N (extract_ts clk).
Proof. unfold mock_ai_extract. rewrite fold_step_invoice_number. reflexivity. Qed.

Lemma join_upload_dir b :
  match b with String c _ => Ascii.eqb c "/" | _ => false end = false ->
  join UPLOAD_DIR b = "uploads" +s+ String "/" b.
Proof. intros H. unfold join. rewrite H. reflexivity. Qed.

(** The tokens of a stored upload's path: the timestamp, then the tokens of
    the client's file name up to its extension. *)
Lemma parts_upload ts f r e :
  all_chars (fun c => negb (Ascii.eqb c "/")) f = true ->
  last_dot_split f = Some (r, e) ->
  parts (upload_path ts f) = str_N ts :: split "_" (replace_char "-" "_" r).
Proof.
  intros Hslash Hdot. unfold parts, upload_path, upload_file_name.
  destruct (str_N_shape ts) as (c & rr & Hs & Hc).
  rewrite join_upload_dir.
  2:{ rewrite Hs. simpl. destruct (Ascii.eqb_spec c "/"); [subst; discriminate|reflexivity]. }
  unfold basename. rewrite split_app_sep.
  rewrite (split_no_sep "/" (str_N ts +s+ "_" +s+ f)).
  2:{ rewrite !all_chars_app, Hslash. rewrite digits_avoid by (reflexivity || apply str_N_digits).
      reflexivity. }
  rewrite List.last_last.
  unfold splitext_root.
  rewrite (last_dot_split_app (str_N ts) ("_" +s+ f) ("_" +s+ r) e)
    by (apply (last_dot_split_app "_" f r e), Hdot).
  rewrite any_char_app. simpl any_char. rewrite orb_true_r.
  unfold replace_char. rewrite map_chars_app. fold (replace_char "-" "_" (str_N ts)).
  rewrite replace_char_absent by (apply digits_avoid; [reflexivity|apply str_N_digits]).
  simpl map_chars. change (String "_" (map_chars (fun c => if Ascii.eqb c "-" then "_"%char else c) r))
    with (String "_" (replace_char "-" "_" r)).
  rewrite split_app_sep.
  rewrite (split_no_sep "_" (str_N ts)) by (apply digits_avoid; [reflexivity|apply str_N_digits]).
  reflexivity.
Qed.

(** The timestamp token is numeric, not alphabetic, and sets the amount to
    the timestamp. *)
Lemma step_timestamp st ts :
  step st (str_N ts) =
  {| vendor_name := vendor_name st; invoice_number := invoice_number st;
     total_amount := Q2Qc (Z.of_N ts # 1); date := date st |}.
Proof.
  assert (Hdot : all_chars (fun c => negb (Ascii.eqb c ".")) (str_N ts) = true)
    by (apply digits_avoid; [reflexivity|apply str_N_digits]).
  assert (Hrm : remove_first "." (str_N ts) = str_N ts).
  { revert Hdot. generalize (str_N ts). intros s. induction s as [|c s IH]; simpl; [reflexivity|].
    intros H. apply andb_prop in H as [H1 H2]. destruct (Ascii.eqb c "."); [discriminate|].
    rewrite IH by exact H2. reflexivity. }
  assert (Hsplit : split_at_dot (str_N ts) = (str_N ts, EmptyString)).
  { revert Hdot. generalize (str_N ts). intros s. induction s as [|c s IH]; simpl; [reflexivity|].
    intros H. apply andb_prop in H as [H1 H2]. destruct (Ascii.eqb c "."); [discriminate|].
    rewrite IH by exact H2. reflexivity. }
  assert (Hfloat : float_of (str_N ts) = Some (Q2Qc (Z.of_N ts # 1))).
  { unfold float_of. rewrite Hsplit, str_N_digits, append_nil_r. simpl.
    destruct (String.eqb_spec (str_N ts) EmptyString) as [E|_];
      [exfalso; exact (str_N_nonempty ts E)|].
    simpl. rewrite str_N_value. reflexivity. }
  destruct (str_N_shape ts) as (c & rr & Hs & Hc).
  assert (Hisd : isdigit (str_N ts) = true).
  { pose proof (str_N_digits ts) as Hd. rewrite Hs in Hd |- *. exact Hd. }
  assert (Halpha : isalpha (str_N ts) = false).
  { rewrite Hs. simpl. unfold is_alpha_char, is_upper, is_lower.
    unfold is_digit in Hc. apply andb_prop in Hc as [H1 H2].
    apply Nat.leb_le in H1, H2.
    rewrite (proj2 (Nat.leb_gt 65 _)) by lia. rewrite (proj2 (Nat.leb_gt 97 _)) by lia.
    reflexivity. }
  assert (Hdash : no_dash (str_N ts) = true)
    by (apply digits_avoid; [reflexivity|apply str_N_digits]).
  unfold step. rewrite Hrm, Hisd, Hfloat, Halpha, andb_false_r.
  rewrite (date_rule_no_dash _ Hdash). reflexivity.
Qed.

End ExtractFacts.

(* ------------------------------------------------------------------ *)
(** ** Facts about the store *)

Module StoreFacts.

Lemma collection_set st name l : collection (set_collection st name l) name = l.
Proof. unfold collection, set_collection; simpl. rewrite lookup_insert_eq. reflexivity. Qed.

Lemma collection_mk s name l x y :
  collection {| db := db (set_collection s name l); next_oid := x; files := y |} name = l.
Proof. unfold collection, set_collection; simpl. rewrite lookup_insert_eq. reflexivity. Qed.

Lemma apply_set_lookup_notin patch d k :
  k ∉ map fst patch -> apply_set patch d !! k = d !! k.
Proof.
  unfold apply_set. revert d. induction patch as [|[k' v] patch IH]; intros d Hk; simpl; [reflexivity|].
  simpl in Hk. rewrite IH by set_solver. apply lookup_insert_ne. set_solver.
Qed.

Lemma apply_set_lookup_in patch d k v :
  NoDup (map fst patch) -> (k, v) ∈ patch -> apply_set patch d !! k = Some v.
Proof.
  unfold apply_set. revert d. induction patch as [|[k' v'] patch IH]; intros d Hnd Hin; simpl.
  - set_solver.
  - simpl in Hnd. apply NoDup_cons in Hnd as [Hk' Hnd].
    apply elem_of_cons in Hin as [Heq|Hin].
    + injection Heq as <- <-. fold (apply_set patch (<[k:=v]> d)).
      rewrite apply_set_lookup_notin by exact Hk'. apply lookup_insert_eq.
    + apply IH; assumption.
Qed.

(** [update_first] rewrites at most one document, leaves the others as they
    are, and keeps the length of the collection. *)
Lemma update_first_shape filter patch docs :
  Forall2 (fun d d' => d' = d \/ d' = apply_set patch d) docs (update_first filter patch docs).1.
Proof.
  induction docs as [|d ds IH]; simpl; [constructor|].
  destruct (matches filter d).
  - simpl. constructor; [right; reflexivity|]. clear IH. induction ds; constructor; auto.
  - destruct (update_first filter patch ds) as [ds' n]. simpl in *. constructor; auto.
Qed.

Lemma update_first_no_match filter patch docs :
  forallb (fun d => negb (matches filter d)) docs = true ->
  update_first filter patch docs = (docs, 0%N).
Proof.
  induction docs as [|d ds IH]; simpl; [reflexivity|].
  intros H. apply andb_prop in H as [H1 H2]. destruct (matches filter d); [discriminate|].
  rewrite IH by exact H2. reflexivity.
Qed.

Lemma update_first_empty filter docs : (update_first filter [] docs).1 = docs.
Proof.
  induction docs as [|d ds IH]; simpl; [reflexivity|].
  destruct (matches filter d); [reflexivity|].
  destruct (update_first filter [] ds) as [ds' n]. simpl in *. congruence.
Qed.

Lemma update_first_matched filter patch docs :
  ((update_first filter patch docs).2 =? 0)%N = negb (existsb (matches filter) docs).
Proof.
  induction docs as [|d ds IH]; simpl; [reflexivity|].
  destruct (matches filter d); [reflexivity|].
  destruct (update_first filter patch ds) as [ds' n]. exact IH.
Qed.

(** An upload with an identity: the file is written, or [open] raises; then
    building the [Invoice] raises, before anything reaches the database. *)
Lemma upload_invoice_run fs_open clk fault pf u file st :
  run (upload_invoice fs_open clk fault pf (Some u) file) st =
    let path := upload_path (save_ts clk) (filename file) in
    match fs_open (files st) path with
    | Some (n, e) => (st, Err 500 (exc_str (OSError n e path)))
    | None => ({| db := db st; next_oid := next_oid st;
                  files := <[path := content file]> (files st) |},
               Err 500 "Error when building FieldInfo from annotated attribute")
    end.
Proof.
  unfold run, upload_invoice, bind, write_file, InvoiceSchema, raise. cbv zeta.
  destruct (fs_open _ _) as [[n e]|]; reflexivity.
Qed.

Lemma extracted_keys e :
  map fst (extracted_dict e) = ["vendor_name"; "invoice_number"; "total_amount"; "date"].
Proof. reflexivity. Qed.

Ltac not_in_keys := rewrite list_elem_of_In; simpl; intuition discriminate.

Lemma extracted_keeps e d k :
  k ∉ ["vendor_name"; "invoice_number"; "total_amount"; "date"] ->
  apply_set (extracted_dict e) d !! k = d !! k.
Proof. intros H. apply apply_set_lookup_notin. rewrite extracted_keys. exact H. Qed.


(** [update_invoice] with a well-formed identifier and a reachable store:
    one [update_one] on the invoice collection, then [{"ok": True}] or, when
    nothing matched, the 404 re-raised as a 400 by the [except]. *)
Lemma update_invoice_run payload u st :
  valid_oid (invoice_id payload) = true ->
  run (update_invoice false payload (Some u)) st =
    let '(docs', n) := update_first (update_filter (Py.map_chars Py.to_lower (invoice_id payload)) u)
                                    (updates_of payload) (collection st "invoice") in
    (set_collection st "invoice" docs',
     if (n =? 0)%N then Err 400 "404: Invoice not found" else Ok (py_dict [("ok", VBool true)])).
Proof.
  intros Hv. unfold run, update_invoice, bind, try_except, ObjectId, update_one, ret, raise.
  rewrite Hv. destruct (update_first _ _ _) as [docs' n]. destruct (n =? 0)%N; reflexivity.
Qed.

(** Otherwise the store is left as it was. *)
Lemma update_invoice_unchanged_or_updated fault payload u st st' r :
  run (update_invoice fault payload (Some u)) st = (st', r) ->
  st' = st \/
  exists oid, st' = set_collection st "invoice"
                (update_first (update_filter oid u) (updates_of payload) (collection st "invoice")).1.
Proof.
  unfold run, update_invoice, bind, try_except, ObjectId, update_one, ret, raise.
  destruct (valid_oid _); [|intros H; left; congruence].
  destruct fault; [intros H; left; congruence|].
  destruct (update_first _ _ _) as [docs' n] eqn:E.
  intros H. right. exists (Py.map_chars Py.to_lower (invoice_id payload)).
  rewrite E. simpl. destruct (n =? 0)%N; congruence.
Qed.

Lemma model_dump_unique p k v1 v2 :
  (k, v1) ∈ model_dump p -> (k, v2) ∈ model_dump p -> v1 = v2.
Proof. unfold model_dump. rewrite !list_elem_of_In. simpl. intuition congruence. Qed.

Lemma updates_of_spec p k v :
  (k, v) ∈ updates_of p <-> (k, v) ∈ model_dump p /\ k <> "invoice_id" /\ v <> VNull.
Proof.
  unfold updates_of. rewrite !list_elem_of_In, List.filter_In. simpl.
  destruct (String.eqb_spec k "invoice_id"); destruct v; simpl; intuition congruence.
Qed.

(** A field sent as [None] is not in the [$set] document. *)
Lemma null_field_not_updated p k :
  (k, VNull) ∈ model_dump p -> k ∉ map fst (updates_of p).
Proof.
  intros Hnull Hin. apply list_elem_of_fmap in Hin as ([k' v] & -> & Hin).
  apply updates_of_spec in Hin as (Hin & _ & Hv). simpl in Hnull.
  apply Hv. symmetry. exact (model_dump_unique _ _ _ _ Hnull Hin).
Qed.

Lemma updates_of_nodup p : NoDup (map fst (updates_of p)).
Proof.
  apply NoDup_fmap_fst.
  - intros k v1 v2 H1 H2. apply updates_of_spec in H1 as [H1 _], H2 as [H2 _].
    exact (model_dump_unique _ _ _ _ H1 H2).
  - unfold updates_of. apply NoDup_ListNoDup, List.NoDup_filter, NoDup_ListNoDup.
    unfold model_dump. repeat constructor; not_in_keys.
Qed.

Lemma shape_refl (patch : list (string * value)) (l : list doc) :
  Forall2 (fun d d' => d' = d \/ d' = apply_set patch d) l l.
Proof. induction l; constructor; auto. Qed.

End StoreFacts.

(* ================================================================== *)
(** * The claims *)


(** C1 (code_bug): for an upload of [acme_250.50_2024-03-01.pdf] the
    extraction yields vendor "Acme", but the amount 1 (from the token "01"
    of the date, split at its dashes) and today's date instead of
    2024-03-01, whatever the clock. *)
Theorem upload_acme_extract (clk : clock) :
  let e := Extract.mock_ai_extract clk
             (upload_path (save_ts clk) "acme_250.50_2024-03-01.pdf") in
  Extract.vendor_name e = "Acme" /\
  Extract.total_amount e = Q2Qc (1 # 1) /\
  Extract.date e = today clk.
Proof.
  unfold Extract.mock_ai_extract.
  rewrite (ExtractFacts.parts_upload (save_ts clk) _ "acme_250.50_2024-03-01" "pdf")
    by reflexivity.
  replace (Py.split "_" (Py.replace_char "-" "_" "acme_250.50_2024-03-01"))
    with ["acme"; "250.50"; "2024"; "03"; "01"] by reflexivity.
  simpl fold_left. rewrite ExtractFacts.step_timestamp.
  vm_compute. repeat split; reflexivity.
Qed.

(** C3 (counterexample): for an upload of [receipt.pdf] the extraction does
    not return the defaults: the token "receipt" sets the vendor and the
    timestamp token of the stored name sets the amount. *)
Lemma upload_receipt_not_defaults :
  let e := Extract.mock_ai_extract clk0 (upload_path (save_ts clk0) "receipt.pdf") in
  Extract.vendor_name e <> "Acme Corp" /\ Extract.total_amount e <> Q2Qc (199 # 1).
Proof. vm_compute. split; discriminate. Qed.

(** C3 (amended): for an upload of [receipt.pdf] the extraction returns the
    vendor "Receipt" (the alphabetic token, capitalised), the amount equal
    to the upload timestamp that prefixes the stored file name, today's
    date, and the invoice number "INV-" followed by the current timestamp. *)
Theorem upload_receipt_extract (clk : clock) :
  let e := Extract.mock_ai_extract clk (upload_path (save_ts clk) "receipt.pdf") in
  Extract.vendor_name e = "Receipt" /\
  Extract.total_amount e = Q2Qc (Z.of_N (save_ts clk) # 1) /\
  Extract.date e = today clk /\
  Extract.invoice_number e = "INV-" +s+ Py.str_N (extract_ts clk).
Proof.
  unfold Extract.mock_ai_extract.
  rewrite (ExtractFacts.parts_upload (save_ts clk) _ "receipt" "pdf") by reflexivity.
  replace (Py.split "_" (Py.replace_char "-" "_" "receipt")) with ["receipt"]
    by reflexivity.
  simpl fold_left. rewrite ExtractFacts.step_timestamp.
  repeat split; reflexivity.
Qed.

(** C9: the date rule of [mock_ai_extract] never fires: no token of the
    name contains ['-'] once every ['-'] has been replaced by ['_'], so no
    token passes the test [len(p) == 10 and p[4] == '-' and p[7] == '-'],
    and the date returned is always today's date. *)
Theorem mock_ai_extract_date_never_overridden (clk : clock) (file_path : string) :
  Forall (fun p => Extract.is_date_token p = false) (Extract.parts file_path) /\
  Extract.date (Extract.mock_ai_extract clk file_path) = today clk.
Proof.
  split; [|apply ExtractFacts.extract_date_today].
  eapply Forall_impl; [apply ExtractFacts.parts_no_dash|].
  intros p. apply ExtractFacts.date_rule_no_dash.
Qed.

(** C5 (code_bug): no upload by an identified caller succeeds, so none
    answers with the status "Needs Review": building the [Invoice] raises
    (schemas.py line 33), every such upload answers 500, and the database and
    its identifier counter are left as they were: no invoice, with status
    "Processing" or any other, is stored. *)
Theorem upload_invoice_never_succeeds fs_open clk fault patch_fault u file st :
  exists st' msg,
    run (upload_invoice fs_open clk fault patch_fault (Some u) file) st = (st', Err 500 msg) /\
    db st' = db st /\ next_oid st' = next_oid st.
Proof.
  rewrite StoreFacts.upload_invoice_run. cbv zeta.
  destruct (fs_open _ _) as [[n e]|]; do 2 eexists; repeat split.
Qed.

(** C6 (code_bug): a failing post-extraction patch is never reached, so no
    upload returns the merged result: with a failing patch an upload by an
    identified caller answers exactly as with a working one, an error 500. *)
Theorem upload_patch_failure_not_reached fs_open clk fault u file st :
  run (upload_invoice fs_open clk fault true (Some u) file) st =
    run (upload_invoice fs_open clk fault false (Some u) file) st /\
  exists st' msg, run (upload_invoice fs_open clk fault true (Some u) file) st = (st', Err 500 msg).
Proof.
  rewrite !StoreFacts.upload_invoice_run. cbv zeta. split; [reflexivity|].
  destruct (fs_open _ _) as [[n e]|]; do 2 eexists; reflexivity.
Qed.

(** C2 (code_bug): an update with a well-formed identifier that matches no
    invoice of the caller (another owner's, or none) leaves the invoices as
    they were, but answers 400 with detail "404: Invoice not found": the
    [HTTPException(404)] raised inside the [try] is caught by [except
    Exception] and re-raised as a 400. *)
Theorem update_invoice_unmatched_is_400 payload u st :
  valid_oid (invoice_id payload) = true ->
  Forall (fun d => matches (update_filter (Py.map_chars Py.to_lower (invoice_id payload)) u) d = false)
         (collection st "invoice") ->
  exists st',
    run (update_invoice false payload (Some u)) st = (st', Err 400 "404: Invoice not found") /\
    collection st' "invoice" = collection st "invoice".
Proof.
  intros Hv Hnone. rewrite StoreFacts.update_invoice_run by exact Hv.
  rewrite StoreFacts.update_first_no_match.
  - eexists. split; [reflexivity|]. apply StoreFacts.collection_set.
  - apply forallb_forall. intros d Hd. rewrite List.Forall_forall in Hnone.
    rewrite (Hnone d Hd). reflexivity.
Qed.

Lemma update_invoice_unmatched_is_400_witness :
  valid_oid alice_invoice_id = true /\
  Forall (fun d => matches (update_filter (Py.map_chars Py.to_lower alice_invoice_id) "bob") d = false)
         (collection st_alice "invoice") /\
  exists st',
    run (update_invoice false (update_request (Some "Globex") None) (Some "bob")) st_alice
      = (st', Err 400 "404: Invoice not found") /\
    collection st' "invoice" = collection st_alice "invoice".
Proof.
  assert (Hnone : Forall (fun d => matches (update_filter (Py.map_chars Py.to_lower alice_invoice_id) "bob") d = false)
                    (collection st_alice "invoice")).
  { change (collection st_alice "invoice") with [alice_invoice].
    constructor; [vm_compute; reflexivity|constructor]. }
  split; [reflexivity|]. split; [exact Hnone|].
  apply update_invoice_unmatched_is_400; [reflexivity|exact Hnone].
Defined.

(** C4 (code_bug): an update of an invoice of the caller stores whatever
    total_amount the request carries, negative amounts included, and
    answers [{"ok": True}]. *)
Theorem update_invoice_stores_any_amount payload u st d docs q :
  valid_oid (invoice_id payload) = true ->
  collection st "invoice" = d :: docs ->
  matches (update_filter (Py.map_chars Py.to_lower (invoice_id payload)) u) d = true ->
  req_total_amount payload = Some q ->
  exists st',
    run (update_invoice false payload (Some u)) st = (st', Ok (py_dict [("ok", VBool true)])) /\
    collection st' "invoice" = apply_set (updates_of payload) d :: docs /\
    apply_set (updates_of payload) d !! "total_amount" = Some (VNum q).
Proof.
  intros Hv Hc Hm Hq. rewrite StoreFacts.update_invoice_run by exact Hv.
  rewrite Hc. cbn [update_first]. rewrite Hm.
  eexists. split; [reflexivity|]. split; [apply StoreFacts.collection_set|].
  apply StoreFacts.apply_set_lookup_in; [apply StoreFacts.updates_of_nodup|].
  apply StoreFacts.updates_of_spec. split; [|split; discriminate].
  unfold model_dump. rewrite Hq, list_elem_of_In. simpl. tauto.
Qed.

Lemma update_invoice_stores_any_amount_witness :
  exists st',
    run (update_invoice false (update_request None (Some (Q2Qc (-5 # 1)))) (Some "alice")) st_alice
      = (st', Ok (py_dict [("ok", VBool true)])) /\
    collection st' "invoice" =
      [apply_set (updates_of (update_request None (Some (Q2Qc (-5 # 1))))) alice_invoice] /\
    apply_set (updates_of (update_request None (Some (Q2Qc (-5 # 1))))) alice_invoice
      !! "total_amount" = Some (VNum (Q2Qc (-5 # 1))).
Proof.
  apply (update_invoice_stores_any_amount _ "alice" st_alice alice_invoice []);
    solve [reflexivity | vm_compute; reflexivity].
Defined.

(** C7: the [$set] document of an update holds exactly the fields the
    request carries (not [None]); every field outside it, in particular each
    of the five fields sent as [None], keeps its value, and no field is ever
    set to null. *)
Theorem update_invoice_frame fault payload u st st' r :
  run (update_invoice fault payload (Some u)) st = (st', r) ->
  (forall k, k ∈ map fst (updates_of payload) <->
     (k = "invoice_number" /\ req_invoice_number payload <> None) \/
     (k = "vendor_name" /\ req_vendor_name payload <> None) \/
     (k = "date" /\ req_date payload <> None) \/
     (k = "total_amount" /\ req_total_amount payload <> None) \/
     (k = "status" /\ req_status payload <> None)) /\
  Forall2 (fun d d' =>
             (forall k, k ∉ map fst (updates_of payload) -> d' !! k = d !! k) /\
             (forall k, d' !! k = Some VNull -> d !! k = Some VNull))
          (collection st "invoice") (collection st' "invoice").
Proof.
  intros Hrun. split.
  - intros k. unfold updates_of, model_dump.
    destruct (req_invoice_number payload), (req_vendor_name payload), (req_date payload),
      (req_total_amount payload), (req_status payload);
      simpl; rewrite list_elem_of_In; simpl; intuition congruence.
  - assert (Hs : Forall2 (fun d d' => d' = d \/ d' = apply_set (updates_of payload) d)
                   (collection st "invoice") (collection st' "invoice")).
    { destruct (StoreFacts.update_invoice_unchanged_or_updated _ _ _ _ _ _ Hrun) as [->|[oid ->]].
      - apply StoreFacts.shape_refl.
      - rewrite StoreFacts.collection_set. apply StoreFacts.update_first_shape. }
    eapply Forall2_impl; [exact Hs|]. intros d d' [->| ->].
    + split; auto.
    + split.
      * intros k Hk. apply StoreFacts.apply_set_lookup_notin. exact Hk.
      * intros k Hk. destruct (decide (k ∈ map fst (updates_of payload))) as [Hin|Hin].
        -- exfalso. apply list_elem_of_fmap in Hin as ([k' v] & Heq & Hin). simpl in Heq. subst k'.
           rewrite (StoreFacts.apply_set_lookup_in _ _ _ _ (StoreFacts.updates_of_nodup payload) Hin)
             in Hk.
           apply StoreFacts.updates_of_spec in Hin as (_ & _ & Hv). congruence.
        -- rewrite StoreFacts.apply_set_lookup_notin in Hk by exact Hin. exact Hk.
Qed.

Lemma update_invoice_frame_witness :
  exists st' r,
    run (update_invoice false (update_request (Some "Globex") None) (Some "alice")) st_alice
      = (st', r) /\
    ((forall k, k ∈ map fst (updates_of (update_request (Some "Globex") None)) <->
       (k = "invoice_number" /\ @None string <> None) \/
       (k = "vendor_name" /\ Some "Globex" <> None) \/
       (k = "date" /\ @None string <> None) \/
       (k = "total_amount" /\ @None Qc <> None) \/
       (k = "status" /\ @None string <> None)) /\
     Forall2 (fun d d' =>
                (forall k, k ∉ map fst (updates_of (update_request (Some "Globex") None)) ->
                           d' !! k = d !! k) /\
                (forall k, d' !! k = Some VNull -> d !! k = Some VNull))
             (collection st_alice "invoice") (collection st' "invoice")).
Proof.
  do 2 eexists. split; [reflexivity|].
  eapply (update_invoice_frame false (update_request (Some "Globex") None) "alice" st_alice).
  reflexivity.
Defined.

(** C10 (counterexample): an update of alice's invoice that sets no field
    sends an empty [$set], and the call succeeds as a no-op instead of
    failing with BadRequest. *)
Lemma update_invoice_empty_patch_succeeds :
  updates_of (update_request None None) = [] /\
  exists st',
    run (update_invoice false (update_request None None) (Some "alice")) st_alice
      = (st', Ok (py_dict [("ok", VBool true)])) /\
    collection st' "invoice" = collection st_alice "invoice".
Proof. split; [reflexivity|]. eexists. split; reflexivity. Qed.

(** C10 (amended): with a well-formed identifier and all five fields
    [None], the [$set] document is empty; the store applies it as a no-op,
    so the call answers [{"ok": True}] when an invoice with that identifier
    belongs to the caller and 400 "404: Invoice not found" otherwise, and no
    invoice changes either way. *)
Theorem update_invoice_empty_patch_noop payload u st :
  valid_oid (invoice_id payload) = true ->
  req_invoice_number payload = None -> req_vendor_name payload = None ->
  req_date payload = None -> req_total_amount payload = None ->
  req_status payload = None ->
  updates_of payload = [] /\
  exists st',
    run (update_invoice false payload (Some u)) st =
      (st', if existsb (matches (update_filter (Py.map_chars Py.to_lower (invoice_id payload)) u))
                       (collection st "invoice")
            then Ok (py_dict [("ok", VBool true)])
            else Err 400 "404: Invoice not found") /\
    collection st' "invoice" = collection st "invoice".
Proof.
  intros Hv H1 H2 H3 H4 H5.
  assert (Hu : updates_of payload = []).
  { unfold updates_of, model_dump. rewrite H1, H2, H3, H4, H5. reflexivity. }
  split; [exact Hu|].
  rewrite StoreFacts.update_invoice_run by exact Hv. rewrite Hu.
  pose proof (StoreFacts.update_first_empty
                (update_filter (Py.map_chars Py.to_lower (invoice_id payload)) u)
                (collection st "invoice")) as He.
  pose proof (StoreFacts.update_first_matched
                (update_filter (Py.map_chars Py.to_lower (invoice_id payload)) u) []
                (collection st "invoice")) as Hm.
  destruct (update_first _ _ _) as [docs' n]. simpl in He, Hm.
  eexists. split.
  - rewrite Hm. destruct (existsb _ _); reflexivity.
  - rewrite StoreFacts.collection_set. exact He.
Qed.

Lemma update_invoice_empty_patch_noop_witness :
  updates_of (update_request None None) = [] /\
  exists st',
    run (update_invoice false (update_request None None) (Some "alice")) st_alice =
      (st', if existsb (matches (update_filter (Py.map_chars Py.to_lower alice_invoice_id) "alice"))
                       (collection st_alice "invoice")
            then Ok (py_dict [("ok", VBool true)])
            else Err 400 "404: Invoice not found") /\
    collection st' "invoice" = collection st_alice "invoice".
Proof. apply update_invoice_empty_patch_noop; reflexivity. Defined.

(** C8: a [createUser] call whose tier and role the [User] schema accepts
    succeeds, on a store that can be reached, and stores a user with 50 credits for the tier "Free" and 1000
    for any other accepted tier. *)
Theorem create_user_credits payload st :
  cu_subscription_tier payload ∈ ["Free"; "Pro"] ->
  cu_role payload ∈ ["admin"; "customer"] ->
  exists st' uid d,
    run (create_user false payload) st = (st', Ok (py_dict [("id", VStr uid)])) /\
    collection st' "user" = collection st "user" ++ [d] /\
    d !! "_id" = Some (VOid uid) /\
    d !! "credits_remaining" =
      Some (VInt (if String.eqb (cu_subscription_tier payload) "Free" then 50 else 1000)).
Proof.
  intros Ht Hr.
  unfold run, create_user, bind, UserSchema, create_document, ret, raise.
  rewrite (bool_decide_eq_true_2 _ Ht), (bool_decide_eq_true_2 _ Hr).
  destruct (String.eqb (cu_subscription_tier payload) "Free"); simpl andb; cbv iota;
    do 3 eexists; (split; [reflexivity|]);
    (split; [apply StoreFacts.collection_mk|]);
    unfold py_dict; cbn [fold_left fst snd]; rewrite !lookup_insert; split; reflexivity.
Qed.

Lemma create_user_credits_witness :
  "Pro" ∈ ["Free"; "Pro"] /\ "customer" ∈ ["admin"; "customer"] /\
  exists st' uid d,
    run (create_user false {| cu_name := "Ada"; cu_email := "ada@example.com";
                        cu_subscription_tier := "Pro"; cu_role := "customer" |})
        st_alice = (st', Ok (py_dict [("id", VStr uid)])) /\
    collection st' "user" = collection st_alice "user" ++ [d] /\
    d !! "_id" = Some (VOid uid) /\
    d !! "credits_remaining" = Some (VInt (if String.eqb "Pro" "Free" then 50 else 1000)).
Proof.
  assert (Ht : "Pro" ∈ ["Free"; "Pro"]) by (right; left).
  assert (Hr : "customer" ∈ ["admin"; "customer"]) by (right; left).
  split; [exact Ht|]. split; [exact Hr|].
  apply (create_user_credits {| cu_name := "Ada"; cu_email := "ada@example.com";
                                cu_subscription_tier := "Pro"; cu_role := "customer" |}
                             st_alice Ht Hr).
Defined.

(* ================================================================== *)
(** * Further properties of the handlers *)

Module ExtraFacts.
Import StoreFacts.

Lemma str_length_app a b : String.length (a +s+ b) = String.length a + String.length b.
Proof. induction a as [|c a IH]; [reflexivity|]. change (S (String.length (a +s+ b)) = S (String.length a + String.length b)). lia. Qed.

Lemma hex_char_ok d :
  (d < 16)%N -> is_hex (hex_char d) = true /\ Py.to_lower (hex_char d) = hex_char d.
Proof.
  intros Hd. assert (exists k, k < 16 /\ d = N.of_nat k) as (k & Hk & ->)
    by (exists (N.to_nat d); lia).
  do 16 (destruct k as [|k]; [split; vm_compute; reflexivity|]). lia.
Qed.

Lemma hex_digits_ok k n :
  String.length (hex_digits k n) = k /\ Py.all_chars is_hex (hex_digits k n) = true /\
  Py.map_chars Py.to_lower (hex_digits k n) = hex_digits k n.
Proof.
  revert n. induction k as [|k IH]; intros n; [repeat split|].
  destruct (IH (n / 16)%N) as (H1 & H2 & H3).
  destruct (hex_char_ok (n mod 16)) as [H4 H5]; [apply N.mod_lt; lia|].
  simpl hex_digits. rewrite str_length_app, StrFacts.all_chars_app, StrFacts.map_chars_app, H1, H2, H3.
  simpl. rewrite H4, H5. repeat split; lia.
Qed.

(** The identifier the store hands out is a well-formed [ObjectId] that
    [ObjectId] reads back unchanged. *)
Lemma valid_oid_oid_hex n : valid_oid (oid_hex n) = true.
Proof.
  unfold valid_oid, oid_hex. destruct (hex_digits_ok 24 n) as (H1 & H2 & _).
  rewrite H1, H2. reflexivity.
Qed.

Lemma lower_oid_hex n : Py.map_chars Py.to_lower (oid_hex n) = oid_hex n.
Proof. apply hex_digits_ok. Qed.


Lemma py_dict_lookup l k v :
  NoDup (map fst l) -> (k, v) ∈ l -> py_dict l !! k = Some v.
Proof. intros. change (apply_set l ∅ !! k = Some v). apply apply_set_lookup_in; assumption. Qed.

Lemma dom_fold_insert (l : list (string * value)) (m : doc) :
  dom (fold_left (fun m kv => <[kv.1 := kv.2]> m) l m) = dom m ∪ list_to_set (map fst l).
Proof.
  revert m. induction l as [|[k v] l IH]; intros m; simpl.
  - set_solver.
  - rewrite IH, dom_insert_L. set_solver.
Qed.

Lemma dom_py_dict l : dom (py_dict l) = list_to_set (map fst l).
Proof. unfold py_dict. rewrite dom_fold_insert, dom_empty_L. set_solver. Qed.

Lemma matches_owner u d :
  matches (owner_filter u) d = bool_decide (d !! "user_id" = Some (VStr u)).
Proof. unfold matches, owner_filter. simpl. apply andb_true_r. Qed.

Lemma list_invoices_eq fr no u st :
  run (list_invoices fr no false (Some u)) st =
    (st, Ok (map (invoice_summary fr)
                 (List.filter (matches (owner_filter u)) (no (collection st "invoice"))))).
Proof. reflexivity. Qed.

Lemma filter_perm {A} (f : A -> bool) (l l' : list A) :
  l ≡ₚ l' -> List.filter f l ≡ₚ List.filter f l'.
Proof.
  induction 1 as [|x l l' _ IH|x y l|l l' l'' _ IH1 _ IH2]; cbn [List.filter].
  - constructor.
  - destruct (f x); [constructor|]; exact IH.
  - destruct (f x), (f y); try constructor; reflexivity.
  - etransitivity; [exact IH1|exact IH2].
Qed.

Lemma in_natural_order (no : list doc -> list doc) l d :
  (forall l, no l ≡ₚ l) -> In d (no l) <-> In d l.
Proof.
  intros Hno. split; apply Permutation_in; [apply Hno|symmetry; apply Hno].
Qed.

Lemma collection_insert st name l n f :
  collection {| db := <[name := l]> (db st); next_oid := n; files := f |} name = l.
Proof. unfold collection; simpl. rewrite lookup_insert_eq. reflexivity. Qed.

Lemma update_first_app_nomatch filter patch l1 l2 :
  forallb (fun d => negb (matches filter d)) l1 = true ->
  update_first filter patch (l1 ++ l2) =
    ((l1 ++ (update_first filter patch l2).1), (update_first filter patch l2).2).
Proof.
  induction l1 as [|d ds IH]; simpl; intros H.
  - destruct (update_first filter patch l2); reflexivity.
  - apply andb_prop in H as [H1 H2]. destruct (matches filter d); [discriminate|].
    rewrite IH by exact H2. reflexivity.
Qed.

(** [update_first] only rewrites a document the filter matches. *)
Lemma update_first_shape_match filter patch docs :
  Forall2 (fun d d' => d' = d \/ (matches filter d = true /\ d' = apply_set patch d))
          docs (update_first filter patch docs).1.
Proof.
  induction docs as [|d ds IH]; simpl; [constructor|].
  destruct (matches filter d) eqn:Hm.
  - simpl. constructor; [right; split; [exact Hm|reflexivity]|]. clear IH. induction ds; constructor; auto.
  - destruct (update_first filter patch ds) as [ds' n]. simpl in *. constructor; auto.
Qed.


Lemma updates_of_keys p k :
  k ∈ map fst (updates_of p) -> k ∈ ["invoice_number"; "vendor_name"; "date"; "total_amount"; "status"].
Proof.
  intros Hk. apply list_elem_of_fmap in Hk as ([k' v] & -> & Hin).
  apply updates_of_spec in Hin as (Hin & Hne & _). simpl.
  unfold model_dump in Hin. rewrite list_elem_of_In in Hin. rewrite list_elem_of_In.
  simpl in *. intuition congruence.
Qed.


(** Each field [step] sets follows the last part that sets it. *)
Lemma fold_step_last {X} (proj : Extract.extraction -> X) (g : string -> option X) :
  (forall st p, proj (Extract.step st p) = from_option id (proj st) (g p)) ->
  forall ps st, proj (fold_left Extract.step ps st) = from_option id (proj st) (last (omap g ps)).
Proof.
  intros Hg ps. induction ps as [|p ps IH]; intros st; [reflexivity|].
  change (fold_left Extract.step (p :: ps) st) with (fold_left Extract.step ps (Extract.step st p)).
  change (omap g (p :: ps)) with (match g p with Some y => y :: omap g ps | None => omap g ps end).
  rewrite IH, Hg. destruct (g p) as [x|]; [|reflexivity].
  destruct (last (omap g ps)) eqn:E; simpl.
  - destruct (omap g ps) as [|y l]; [discriminate|]. rewrite last_cons_cons, E. reflexivity.
  - apply last_None in E. rewrite E. reflexivity.
Qed.

Lemma digits_value_nonneg s acc :
  Py.all_chars Py.is_digit s = true -> (0 <= acc)%Z -> (0 <= Py.digits_value s acc)%Z.
Proof.
  revert acc; induction s as [|c s IH]; intros acc Hs Ha; simpl in *; [exact Ha|].
  apply andb_prop in Hs as [Hc Hs]. apply IH; [exact Hs|].
  unfold Py.is_digit in Hc. apply andb_prop in Hc as [H1 _]. apply Nat.leb_le in H1. lia.
Qed.

Lemma float_of_nonneg s q : Py.float_of s = Some q -> (0 <= q)%Qc.
Proof.
  unfold Py.float_of. destruct (Py.split_at_dot s) as [i f].
  destruct (Py.all_chars Py.is_digit i && Py.all_chars Py.is_digit f && _) eqn:H; [|discriminate].
  intros Hq; injection Hq as <-.
  apply andb_prop in H as [H _]. apply andb_prop in H as [Hi Hf].
  assert (Hz : (0 <= Py.digits_value (i +s+ f) 0)%Z).
  { apply digits_value_nonneg; [rewrite StrFacts.all_chars_app, Hi, Hf; reflexivity|lia]. }
  unfold Qcle. cbn [this Q2Qc]. apply Qred_le. unfold Qle; simpl. lia.
Qed.

Lemma fold_step_amount_nonneg ps st :
  (0 <= Extract.total_amount st)%Qc -> (0 <= Extract.total_amount (fold_left Extract.step ps st))%Qc.
Proof.
  revert st; induction ps as [|p ps IH]; intros st Hst; [exact Hst|].
  apply IH. unfold Extract.step; cbn [Extract.total_amount].
  destruct (Py.isdigit _); [|exact Hst].
  destruct (Py.float_of p) eqn:E; [exact (float_of_nonneg _ _ E)|exact Hst].
Qed.

Lemma invoice_summary_lookup fr d :
  invoice_summary fr d !! "id" = Some (VStr (py_str fr (dict_get d "_id" VNull))) /\
  invoice_summary fr d !! "file_name" = Some (dict_get d "file_name" VNull) /\
  invoice_summary fr d !! "invoice_number" = Some (dict_get d "invoice_number" VNull) /\
  invoice_summary fr d !! "vendor_name" = Some (dict_get d "vendor_name" VNull) /\
  invoice_summary fr d !! "date" = Some (dict_get d "date" VNull) /\
  invoice_summary fr d !! "total_amount" = Some (dict_get d "total_amount" VNull) /\
  invoice_summary fr d !! "status" = Some (dict_get d "status" (VStr "Processing")).
Proof.
  unfold invoice_summary, py_dict. cbn [fold_left fst snd].
  rewrite !lookup_insert. repeat split; reflexivity.
Qed.

Lemma owner_filter_out u v d :
  d !! "user_id" = Some (VStr u) -> u <> v -> List.filter (matches (owner_filter v)) [d] = [].
Proof.
  intros H Hne. cbn [List.filter]. rewrite matches_owner, bool_decide_eq_false_2; [reflexivity|].
  rewrite H. congruence.
Qed.

Lemma owner_filter_in u d :
  d !! "user_id" = Some (VStr u) -> List.filter (matches (owner_filter u)) [d] = [d].
Proof.
  intros H. cbn [List.filter]. rewrite matches_owner, bool_decide_eq_true_2 by exact H.
  reflexivity.
Qed.



Lemma updates_keep_ids p d k :
  k ∈ ["_id"; "user_id"] -> apply_set (updates_of p) d !! k = d !! k.
Proof.
  intros Hk. apply apply_set_lookup_notin. intros Hin. apply updates_of_keys in Hin.
  revert Hk Hin. rewrite !list_elem_of_In. simpl. intuition congruence.
Qed.

Lemma matches_update_filter oid u d :
  matches (update_filter oid u) d = true ->
  d !! "_id" = Some (VOid oid) /\ d !! "user_id" = Some (VStr u).
Proof.
  unfold matches, update_filter. cbn [forallb fst snd]. intros Hm.
  apply andb_prop in Hm as [Hm1 Hm2]. apply andb_prop in Hm2 as [Hm2 _].
  apply bool_decide_eq_true_1 in Hm1, Hm2. split; assumption.
Qed.

End ExtraFacts.

(** X1. Without an [x-user-id] header, uploading, listing, updating and
    exporting all answer 401 "Missing x-user-id header" and leave the store
    (documents, counter and files) as it was. *)
Theorem protected_handlers_require_identity fs_open clk fault pf fr no file payload st :
  run (upload_invoice fs_open clk fault pf (get_current_user_id None) file) st =
    (st, Err 401 "Missing x-user-id header") /\
  run (list_invoices fr no fault (get_current_user_id None)) st =
    (st, Err 401 "Missing x-user-id header") /\
  run (update_invoice fault payload (get_current_user_id None)) st =
    (st, Err 401 "Missing x-user-id header") /\
  run (export_invoices_csv fr no fault fs_open (get_current_user_id None)) st =
    (st, Err 401 "Missing x-user-id header").
Proof. repeat split. Qed.

(** X2. Listing never changes the store: when the store cannot be reached it
    answers 500, and otherwise it returns, in whatever order the store
    keeps, exactly as many entries as the caller owns invoices, every entry
    the summary of one of the caller's invoices. *)
Theorem list_invoices_caller_only fr no u st :
  (forall l, no l ≡ₚ l) ->
  run (list_invoices fr no true (Some u)) st = (st, Err 500 "store unavailable") /\
  exists out,
    run (list_invoices fr no false (Some u)) st = (st, Ok out) /\
    length out = length (List.filter (fun d => bool_decide (d !! "user_id" = Some (VStr u)))
                                     (collection st "invoice")) /\
    Forall (fun s => exists d, d ∈ collection st "invoice" /\
                               d !! "user_id" = Some (VStr u) /\ s = invoice_summary fr d) out.
Proof.
  intros Hno. split; [reflexivity|].
  eexists. split; [apply ExtraFacts.list_invoices_eq|]. split.
  - rewrite length_map.
    rewrite (Permutation_length (ExtraFacts.filter_perm _ _ _ (Hno (collection st "invoice")))).
    f_equal. apply List.filter_ext. intros d. apply ExtraFacts.matches_owner.
  - apply Forall_forall. intros s Hs. apply list_elem_of_fmap in Hs as (d & -> & Hd).
    rewrite list_elem_of_In, List.filter_In, ExtraFacts.in_natural_order in Hd by exact Hno.
    destruct Hd as [Hin Hm].
    rewrite ExtraFacts.matches_owner in Hm. apply bool_decide_eq_true_1 in Hm.
    exists d. rewrite list_elem_of_In. auto.
Qed.

(** X3. An entry of the listing has exactly the keys id, file_name,
    invoice_number, vendor_name, date, total_amount and status: the owner
    and the stored file path are never sent.  A stored invoice without a
    status is reported as "Processing". *)
Theorem invoice_summary_keys fr d :
  dom (invoice_summary fr d) =
    list_to_set ["id"; "file_name"; "invoice_number"; "vendor_name"; "date";
                 "total_amount"; "status"] /\
  (d !! "status" = None -> invoice_summary fr d !! "status" = Some (VStr "Processing")).
Proof.
  split.
  - unfold invoice_summary. rewrite ExtraFacts.dom_py_dict. reflexivity.
  - intros H. destruct (ExtraFacts.invoice_summary_lookup fr d) as (_ & _ & _ & _ & _ & _ & Hs).
    rewrite Hs. unfold dict_get. rewrite H. reflexivity.
Qed.


(** X5. An upload leaves every user's listing as it was, the uploader's
    included, whether the store can be reached or not. *)
Theorem upload_keeps_other_listing fs_open clk fault pf fr no u v file st st' r :
  run (upload_invoice fs_open clk fault pf (Some u) file) st = (st', r) ->
  forall lfault,
    snd (run (list_invoices fr no lfault (Some v)) st') =
      snd (run (list_invoices fr no lfault (Some v)) st).
Proof.
  intros Hr lfault. rewrite StoreFacts.upload_invoice_run in Hr. cbv zeta in Hr.
  destruct (fs_open _ _) as [[n e]|]; injection Hr as <- _;
    destruct lfault; reflexivity.
Qed.

(** X6. An update never changes the identifier or the owner of any invoice,
    and never changes an invoice the caller does not own. *)
Theorem update_invoice_keeps_owners fault payload u st st' r :
  run (update_invoice fault payload (Some u)) st = (st', r) ->
  Forall2 (fun d d' => d' !! "_id" = d !! "_id" /\ d' !! "user_id" = d !! "user_id" /\
                       (d !! "user_id" <> Some (VStr u) -> d' = d))
          (collection st "invoice") (collection st' "invoice").
Proof.
  intros H. apply StoreFacts.update_invoice_unchanged_or_updated in H as [->|[oid ->]].
  - induction (collection st "invoice"); constructor; [repeat split; auto|assumption].
  - rewrite StoreFacts.collection_set.
    eapply Forall2_impl; [apply ExtraFacts.update_first_shape_match|].
    intros d d' [->|[Hm ->]]; [repeat split; auto|].
    destruct (ExtraFacts.matches_update_filter _ _ _ Hm) as [_ Hu].
    rewrite !ExtraFacts.updates_keep_ids by (rewrite list_elem_of_In; simpl; auto).
    repeat split. intros Hne. contradiction.
Qed.



(** X9. Creating a user with a tier other than "Free" or "Pro", or a role
    other than "admin" or "customer", fails with a 500 (the schema's
    validation error escapes the handler) and stores nothing. *)
Theorem create_user_rejects_invalid_literal fault payload st :
  cu_subscription_tier payload ∉ ["Free"; "Pro"] \/ cu_role payload ∉ ["admin"; "customer"] ->
  exists msg, run (create_user fault payload) st = (st, Err 500 msg).
Proof.
  intros H. unfold run, create_user, bind, UserSchema, raise, ret.
  destruct H as [H|H].
  - rewrite (bool_decide_eq_false_2 _ H). eexists. reflexivity.
  - rewrite (bool_decide_eq_false_2 _ H), andb_false_r. eexists. reflexivity.
Qed.

(** X10. When uploads/invoices_<user>.csv can be written, the export reads
    the same invoices as the listing: it writes one header row and one row per
    listed invoice, in the listing's order, to that file, overwriting any
    earlier export, changes no document, and serves the file under the name
    invoices_<user>.csv. *)
Theorem export_matches_listing fr no fs_open u st :
  fs_open (files st) ("uploads/invoices_" +s+ u +s+ ".csv") = None ->
  exists docs,
    run (export_invoices_csv fr no false fs_open (Some u)) st =
      ({| db := db st; next_oid := next_oid st;
          files := <["uploads/invoices_" +s+ u +s+ ".csv" := csv_bytes fr docs]> (files st) |},
       Ok ("uploads/invoices_" +s+ u +s+ ".csv", "invoices_" +s+ u +s+ ".csv")) /\
    run (list_invoices fr no false (Some u)) st = (st, Ok (map (invoice_summary fr) docs)) /\
    length (export_rows fr docs) = S (length docs).
Proof.
  intros H. exists (List.filter (matches (owner_filter u)) (no (collection st "invoice"))).
  assert (Hp : OsPath.join UPLOAD_DIR (export_file_name u) = "uploads/invoices_" +s+ u +s+ ".csv")
    by reflexivity.
  unfold run, export_invoices_csv, bind, get_documents, write_file, ret. cbv zeta.
  rewrite Hp, H. split; [reflexivity|]. split; [reflexivity|].
  unfold export_rows. simpl. rewrite length_map. reflexivity.
Qed.



(** X12. The amount [mock_ai_extract] reports is never negative. *)
Theorem mock_ai_extract_amount_nonneg clk file_path :
  (0 <= Extract.total_amount (Extract.mock_ai_extract clk file_path))%Qc.
Proof.
  apply ExtraFacts.fold_step_amount_nonneg.
  unfold Extract.defaults. cbn [Extract.total_amount]. vm_compute. intros H. discriminate.
Qed.

(** X13. The vendor is the capitalized last part of at least three letters,
    or "Acme Corp" when there is none. *)
Theorem mock_ai_extract_vendor_last clk file_path :
  Extract.vendor_name (Extract.mock_ai_extract clk file_path) =
    from_option id "Acme Corp"
      (last (omap (fun p => if (3 <=? String.length p) && Py.isalpha p
                            then Some (Py.capitalize p) else None)
                  (Extract.parts file_path))).
Proof.
  apply (ExtraFacts.fold_step_last Extract.vendor_name). intros st p.
  unfold Extract.step. cbn [Extract.vendor_name]. destruct (_ && _); reflexivity.
Qed.

(** X14. The amount is the value of the last numeric part, or 199 when
    there is none. *)
Theorem mock_ai_extract_amount_last clk file_path :
  Extract.total_amount (Extract.mock_ai_extract clk file_path) =
    from_option id (Q2Qc (199 # 1))
      (last (omap (fun p => if Py.isdigit (Py.remove_first "." p) then Py.float_of p else None)
                  (Extract.parts file_path))).
Proof.
  apply (ExtraFacts.fold_step_last Extract.total_amount). intros st p.
  unfold Extract.step. cbn [Extract.total_amount].
  destruct (Py.isdigit _); [destruct (Py.float_of p)|]; reflexivity.
Qed.





Lemma natural_order0_perm : forall l, natural_order0 l ≡ₚ l.
Proof. intros l. symmetry. apply Permutation_rev. Qed.

Lemma upload_keeps_other_listing_witness :
  exists st' r,
    run (upload_invoice fresh_fs clk0 false false (Some "bob") bob_file) st_alice = (st', r) /\
    forall lfault,
      snd (run (list_invoices repr0 natural_order0 lfault (Some "alice")) st') =
        snd (run (list_invoices repr0 natural_order0 lfault (Some "alice")) st_alice).
Proof.
  do 2 eexists. split; [reflexivity|].
  eapply (upload_keeps_other_listing fresh_fs clk0 false false repr0 natural_order0 "bob" "alice"
            bob_file st_alice).
  reflexivity.
Defined.

Lemma update_invoice_keeps_owners_witness :
  exists st' r,
    run (update_invoice false (update_request (Some "Globex") None) (Some "alice")) st_alice
      = (st', r) /\
    Forall2 (fun d d' => d' !! "_id" = d !! "_id" /\ d' !! "user_id" = d !! "user_id" /\
                         (d !! "user_id" <> Some (VStr "alice") -> d' = d))
            (collection st_alice "invoice") (collection st' "invoice").
Proof.
  do 2 eexists. split; [reflexivity|].
  eapply (update_invoice_keeps_owners false (update_request (Some "Globex") None) "alice" st_alice).
  reflexivity.
Defined.



Lemma create_user_rejects_invalid_literal_witness :
  ("Enterprise" ∉ ["Free"; "Pro"] \/ "customer" ∉ ["admin"; "customer"]) /\
  exists msg,
    run (create_user false {| cu_name := "Bo"; cu_email := "bo@example.com";
                        cu_subscription_tier := "Enterprise"; cu_role := "customer" |}) st_alice
      = (st_alice, Err 500 msg).
Proof.
  assert (H : "Enterprise" ∉ ["Free"; "Pro"] \/ "customer" ∉ ["admin"; "customer"]).
  { left. rewrite list_elem_of_In. simpl. intuition discriminate. }
  split; [exact H|].
  exact (create_user_rejects_invalid_literal false
           {| cu_name := "Bo"; cu_email := "bo@example.com";
              cu_subscription_tier := "Enterprise"; cu_role := "customer" |} st_alice H).
Defined.

Lemma list_invoices_caller_only_witness :
  (forall l, natural_order0 l ≡ₚ l) /\
  run (list_invoices repr0 natural_order0 true (Some "alice")) st_alice =
    (st_alice, Err 500 "store unavailable") /\
  exists out,
    run (list_invoices repr0 natural_order0 false (Some "alice")) st_alice = (st_alice, Ok out) /\
    length out = length (List.filter (fun d => bool_decide (d !! "user_id" = Some (VStr "alice")))
                                     (collection st_alice "invoice")) /\
    Forall (fun s => exists d, d ∈ collection st_alice "invoice" /\
                               d !! "user_id" = Some (VStr "alice") /\
                               s = invoice_summary repr0 d) out.
Proof.
  split; [exact natural_order0_perm|].
  exact (list_invoices_caller_only repr0 natural_order0 "alice" st_alice natural_order0_perm).
Defined.

Lemma export_matches_listing_witness :
  fresh_fs (files st_alice) ("uploads/invoices_" +s+ "alice" +s+ ".csv") = None /\
  exists docs,
    run (export_invoices_csv repr0 natural_order0 false fresh_fs (Some "alice")) st_alice =
      ({| db := db st_alice; next_oid := next_oid st_alice;
          files := <["uploads/invoices_" +s+ "alice" +s+ ".csv" := csv_bytes repr0 docs]>
                     (files st_alice) |},
       Ok ("uploads/invoices_" +s+ "alice" +s+ ".csv", "invoices_" +s+ "alice" +s+ ".csv")) /\
    run (list_invoices repr0 natural_order0 false (Some "alice")) st_alice =
      (st_alice, Ok (map (invoice_summary repr0) docs)) /\
    length (export_rows repr0 docs) = S (length docs).
Proof.
  assert (H : fresh_fs (files st_alice) ("uploads/invoices_" +s+ "alice" +s+ ".csv") = None)
    by reflexivity.
  split; [exact H|].
  exact (export_matches_listing repr0 natural_order0 fresh_fs "alice" st_alice H).
Defined.

